(** * OpenShield gateway: usage recorder, route wiring, rate limiting and
      the server lifecycle.

    The development follows the Go sources file by file:
    - [Models] and [Lib] embed [lib.Usage] (the usage recorder);
    - [Lifecycle] embeds the tail of [server.StartServer]: the two functions
      handed to [errgroup.Group.Go] and the final [g.Wait()];
    - [Httprate] describes the limiter the server obtains from
      [httprate.Limit];
    - [Server] embeds [setupOpenAIRoutes], [setupRoute] and the dispatch of a
      request through the handlers they register. *)

From Stdlib Require Import ZArith List Ascii String Bool Lia.
From Stdlib Require Import Decimal DecimalString DecimalPos DecimalN.
From stdpp Require Import base gmap strings.
Import ListNotations.

#[local] Open Scope string_scope.
#[local] Open Scope Z_scope.

(** ** package models *)

Module Models.

(** Identifier of a model row.  The column type is declared next to the
    table definitions; the recorder only copies the value. *)
Definition ModelId := string.

(** [models.FinishReason] is a named string type: the conversion
    [models.FinishReason(s)] keeps the characters of [s]. *)
Inductive FinishReason := mkFinishReason (s : string).

(** The fields of [models.AiModels] that [lib.Usage] reads. *)
Record AiModels := { Id : ModelId; Name : string }.

(** [models.Usage], with the fields [lib.Usage] fills in. *)
Record Usage := {
  ModelID : ModelId;
  PredictedTokensCount : Z;
  PromptTokensCount : Z;
  CompletionTokens : Z;
  TotalTokens : Z;
  FinishReason_ : FinishReason;
  RequestType : string
}.

End Models.

(** ** package lib: the usage recorder *)

Module Lib.
Import Models.

(** A Go [error] value that is not nil, represented by its message. *)
Definition error := string.

(** What [lib.Usage] reads from its surroundings: the flag
    [config.Settings.UsageLogging.Enabled] returned by [GetConfig()], and
    the model catalogue behind [GetModel], which answers with a row or
    with an error. *)
Record Env := {
  UsageLogging_Enabled : bool;
  GetModel : string -> AiModels + error
}.

(** What [lib.Usage] does to its surroundings: the lines given to
    [log.Printf] and the records handed to [db.Create], both oldest
    first. *)
Record Effects := {
  logged : list string;
  created : list Usage
}.

Definition log_Printf (line : string) (s : Effects) : Effects :=
  {| logged := (logged s ++ [line])%list; created := created s |}.

Definition db_Create (u : Usage) (s : Effects) : Effects :=
  {| logged := logged s; created := (created s ++ [u])%list |}.

(** [func Usage(modelName string, predictedTokensCount int, ...)].
    The Go function has no result: the value of the [*gorm.DB] returned
    by [db.Create] is discarded, and both early exits are plain
    [return]s. *)
Definition Usage (env : Env) (modelName : string)
    (predictedTokensCount promptTokensCount completionTokens totalTokens : Z)
    (finishReason requestType : string) (s : Effects) : Effects :=
  if UsageLogging_Enabled env then
    match GetModel env modelName with
    | inr err => log_Printf ("Error: " ++ err) s
    | inl aiModel =>
        let usage := {|
          ModelID := Id aiModel;
          PredictedTokensCount := predictedTokensCount;
          PromptTokensCount := promptTokensCount;
          CompletionTokens := completionTokens;
          TotalTokens := totalTokens;
          FinishReason_ := mkFinishReason finishReason;
          RequestType := requestType |} in
        db_Create usage s
    end
  else log_Printf "Usage logs is disabled" s.

End Lib.

(** ** The supervision at the end of [StartServer] *)

Module Lifecycle.

(** Errors a supervised function can return. *)
Inductive error :=
| Canceled                      (* context.Canceled, the value of ctx.Err() *)
| ListenError (msg : string).   (* whatever http.ListenAndServe returns *)

(** A function started with [g.Go]: still running, or returned with nil
    ([None]) or with an error. *)
Inductive task :=
| Running
| Returned (r : option error).

Record group := {
  listener : task;          (* g.Go #1: http.ListenAndServe(addr, router) *)
  watcher : task;           (* g.Go #2: the select on quit and ctx.Done() *)
  quit : bool;              (* the one-slot channel [quit] holds a signal *)
  parentCancelled : bool;   (* cancel() of context.WithCancel was called *)
  groupCancelled : bool;    (* the errgroup cancelled its derived context *)
  gerr : option error;      (* the error g.Wait() will report *)
  errs : list error         (* every non-nil error returned so far, oldest first *)
}.

(** Both functions have been started and [signal.Notify] has registered
    [quit]. *)
Definition started : group :=
  {| listener := Running; watcher := Running; quit := false;
     parentCancelled := false; groupCancelled := false;
     gerr := None; errs := [] |}.

(** [ctx] in the second function is the context derived by
    [errgroup.WithContext(ctx)]: it is done once its parent or the group
    cancels. *)
Definition ctx_Done (g : group) : bool :=
  parentCancelled g || groupCancelled g.

(** Bookkeeping of [errgroup.Group.Go] when a function returns [r]: a
    non-nil error is stored by [errOnce.Do] if it is the first one, and
    the derived context is cancelled with it. *)
Definition returns (r : option error) (g : group) : group :=
  match r with
  | None => g
  | Some e =>
      {| listener := listener g; watcher := watcher g; quit := quit g;
         parentCancelled := parentCancelled g;
         groupCancelled := true;
         gerr := match gerr g with None => Some e | Some e0 => Some e0 end;
         errs := (errs g ++ [e])%list |}
  end.

Inductive event :=
| Signal                    (* SIGINT or SIGTERM is delivered *)
| ListenFails (msg : string)(* http.ListenAndServe returns an error *)
| SelectQuit                (* the select takes [case <-quit] *)
| SelectDone.               (* the select takes [case <-ctx.Done()] *)

Definition is_running (t : task) : bool :=
  match t with Running => true | Returned _ => false end.

(** One move of the two goroutines; [None] when the move is not enabled.
    [http.ListenAndServe] takes no context: the listener has no move that
    looks at [ctx]. *)
Definition step (ev : event) (g : group) : option group :=
  match ev with
  | Signal =>
      Some {| listener := listener g; watcher := watcher g; quit := true;
              parentCancelled := parentCancelled g;
              groupCancelled := groupCancelled g;
              gerr := gerr g; errs := errs g |}
  | ListenFails msg =>
      if is_running (listener g) then
        Some (returns (Some (ListenError msg))
                {| listener := Returned (Some (ListenError msg));
                   watcher := watcher g; quit := quit g;
                   parentCancelled := parentCancelled g;
                   groupCancelled := groupCancelled g;
                   gerr := gerr g; errs := errs g |})
      else None
  | SelectQuit =>
      if is_running (watcher g) && quit g then
        (* fmt.Println("Shutting down server..."); cancel(); return nil *)
        Some (returns None
                {| listener := listener g; watcher := Returned None;
                   quit := false; parentCancelled := true;
                   groupCancelled := groupCancelled g;
                   gerr := gerr g; errs := errs g |})
      else None
  | SelectDone =>
      if is_running (watcher g) && ctx_Done g then
        (* return ctx.Err() *)
        Some (returns (Some Canceled)
                {| listener := listener g; watcher := Returned (Some Canceled);
                   quit := quit g; parentCancelled := parentCancelled g;
                   groupCancelled := groupCancelled g;
                   gerr := gerr g; errs := errs g |})
      else None
  end.

Fixpoint run (evs : list event) (g : group) : option group :=
  match evs with
  | [] => Some g
  | ev :: evs' =>
      match step ev g with
      | Some g' => run evs' g'
      | None => None
      end
  end.

(** [if err := g.Wait(); err != nil { return err }; return nil]:
    [g.Wait()] blocks until both functions have returned.  [None] means
    that [StartServer] has not returned yet. *)
Definition StartServer_result (g : group) : option (option error) :=
  match listener g, watcher g with
  | Returned _, Returned _ => Some (gerr g)
  | _, _ => None
  end.

(** What holds of every state the two goroutines can reach: while the
    listener runs no error has been returned, the group context is live
    and the watcher can only have left through [case <-quit]; once the
    listener has returned, its error is the one the group keeps. *)
Definition supervised (g : group) : Prop :=
  (watcher g = Running -> parentCancelled g = false) /\
  match listener g with
  | Running =>
      gerr g = None /\ groupCancelled g = false /\ errs g = [] /\
      (watcher g = Running \/ watcher g = Returned None)
  | Returned r =>
      exists msg, r = Some (ListenError msg) /\
                  groupCancelled g = true /\
                  gerr g = Some (ListenError msg) /\
                  hd_error (errs g) = Some (ListenError msg)
  end.

(** A sequence of moves in which [http.ListenAndServe] does not return. *)
Definition listener_healthy (evs : list event) : Prop :=
  forall msg, ~ In (ListenFails msg) evs.

End Lifecycle.

(** ** Time *)

Module Time.

(** [time.Duration] is an [int64] count of nanoseconds; [time.Time] is
    read as nanoseconds since the zero time. *)
Definition Second : Z := 1000000000.

(** Two's complement wrap-around of an [int64] result. *)
Definition wrap64 (z : Z) : Z := (z + 2 ^ 63) mod 2 ^ 64 - 2 ^ 63.

(** [a * b] on [time.Duration]. *)
Definition mul (a b : Z) : Z := wrap64 (a * b).

(** [t.Truncate(d)]: [t] rounded down to a multiple of [d] since the zero
    time; [t] itself when [d <= 0]. *)
Definition Truncate (t d : Z) : Z := if d <=? 0 then t else t - t mod d.

End Time.

(** ** The limiter returned by [httprate.Limit]

    [httprate] and [httprate-redis] are dependencies of the server, not
    part of its sources.  The definitions below follow the library's
    sliding-window counter: one counter per client key and window of
    [windowLength], and a rate that adds the current window's count to the
    previous window's count weighted by the share of the previous window
    that still overlaps the last [windowLength].  The library computes the
    weighted term in [float64] and rounds with [math.Round]; here it is
    computed exactly, rounding half away from zero, so the two can differ
    where the [float64] product or quotient is inexact and the exact value
    lies next to a half.  A zero window is treated apart in [OnRequest]. *)

Module Httprate.

Record limiter := {
  requestLimit : Z;     (* first argument of httprate.Limit *)
  windowLength : Z      (* second argument, nanoseconds *)
}.

(** The counters of the [LimitCounter], here the Redis instance shared
    by all gateway processes: key and window start to count. *)
Abbreviation counters := (gmap (string * Z) Z).

Definition count (c : counters) (key : string) (window : Z) : Z :=
  default 0 (c !! (key, window)).

(** [LimitCounter.Increment(key, currentWindow)]. *)
Definition Increment (c : counters) (key : string) (window : Z) : counters :=
  <[(key, window) := count c key window + 1]> c.

(** [math.Round(prev * (windowLength - diff) / windowLength)] for a
    non-negative count and a window that is not zero. *)
Definition weighted (prev diff len : Z) : Z :=
  (2 * (prev * (len - diff)) + len) / (2 * len).

(** The rounded rate of [key] at [now]. *)
Definition rate (l : limiter) (c : counters) (key : string) (now : Z) : Z :=
  let currentWindow := Time.Truncate now (windowLength l) in
  let previousWindow := currentWindow - windowLength l in
  let diff := now - currentWindow in
  weighted (count c key previousWindow) diff (windowLength l)
  + count c key currentWindow.

Inductive verdict :=
| Pass                          (* next.ServeHTTP(w, r) *)
| Limited (retryAfter : Z).     (* 429 with header Retry-After, seconds *)

(** The limiter's middleware on one request of [key] at [now]: the
    request is turned away when the rate has reached the limit, and
    counted in the current window otherwise.  [Retry-After] is
    [int(windowLength.Seconds())], which cuts towards zero; for a window
    of whole seconds the [float64] in between is exact.  With a zero
    window the weighted term is the [float64] quotient 0/0, the rate is
    not a number and no comparison with the limit holds: the request
    passes and is counted at [now], which is what [Truncate] returns. *)
Definition OnRequest (l : limiter) (key : string) (now : Z) (c : counters)
  : verdict * counters :=
  if windowLength l =? 0
  then (Pass, Increment c key now)
  else if requestLimit l <=? rate l c key now
  then (Limited (Z.quot (windowLength l) Time.Second), c)
  else (Pass, Increment c key (Time.Truncate now (windowLength l))).

(** A client sending requests at the instants [times], in this order. *)
Fixpoint requests (l : limiter) (key : string) (times : list Z) (c : counters)
  : list verdict * counters :=
  match times with
  | [] => ([], c)
  | now :: times' =>
      let '(v, c1) := OnRequest l key now c in
      let '(vs, c2) := requests l key times' c1 in
      (v :: vs, c2)
  end.

Definition passed (v : verdict) : bool :=
  match v with Pass => true | Limited _ => false end.

End Httprate.

(** ** The limiter as section 4.1 of the design describes it *)

Module SubWindows.

(** A policy in the design's words: at most [max] requests, sub-windows
    of length [window], [windowCount] of them in one effective window. *)
Record policy := { max : Z; window : Z; windowCount : nat }.

Abbreviation counters := (gmap (string * Z) Z).

Definition count (c : counters) (key : string) (sub : Z) : Z :=
  default 0 (c !! (key, sub)).

(** The counts of the [n] sub-windows that end with sub-window [sub]. *)
Fixpoint trailing (c : counters) (key : string) (sub : Z) (n : nat) : Z :=
  match n with
  | O => 0
  | S n' => count c key sub + trailing c key (sub - 1) n'
  end.

(** Admission sums the trailing [windowCount] sub-windows; an admitted
    request is counted in the current sub-window. *)
Definition Admit (p : policy) (key : string) (now : Z) (c : counters)
  : bool * counters :=
  let sub := now / window p in
  if trailing c key sub (windowCount p) <? max p
  then (true, <[(key, sub) := count c key sub + 1]> c)
  else (false, c).

Fixpoint requests (p : policy) (key : string) (times : list Z) (c : counters)
  : list bool * counters :=
  match times with
  | [] => ([], c)
  | now :: times' =>
      let '(v, c1) := Admit p key now c in
      let '(vs, c2) := requests p key times' c1 in
      (v :: vs, c2)
  end.

End SubWindows.

(** ** package server: route wiring *)

Module Server.

(** What a guard or handler looks at in an [*http.Request]. *)
Record Request := {
  Method : string;
  Path : string;
  RemoteAddr : string;       (* the caller's address, as [httprate.KeyByIP] keys it *)
  Authorization : string     (* the credential the caller presents *)
}.

(** The backend handlers of package [openai]. *)
Inductive backend := ListModelsHandler | GetModelHandler | ChatCompletionHandler.

(** An [http.HandlerFunc] as the server composes it. *)
Inductive handler :=
| OpenAI (b : backend)
    (* openai.ListModelsHandler, ... *)
| AuthOpenShieldMiddleware (next : handler)
    (* lib.AuthOpenShieldMiddleware(next) *)
| Limit (l : Httprate.limiter) (next : handler).
    (* the middleware httprate.Limit(...) around next, as r.With(..).Handle builds it *)

Inductive Response :=
| Unauthorized                    (* 401 from the Auth Gate *)
| TooManyRequests (retryAfter : Z)(* 429 from the limiter *)
| Handled (b : backend).          (* whatever the backend handler wrote *)

(** The server-side state a request can touch: the limiter's counters
    and the backend handlers reached so far, oldest first. *)
Record World := {
  counters : gmap (string * Z) Z;
  reached : list (backend * Request)
}.

(** [lib.RouteSettings], the fields [setupRoute] reads; the Go fields are
    of type [int]. *)
Record RouteSettings := {
  RateLimit_Max : Z;
  RateLimit_Expiration : Z;
  RateLimit_Window : Z;
  Redis_URI : string
}.

(** What [setupRoute] asks of a parsed [*url.URL]. *)
Record URL := { Hostname : string; Port : string; User_Username : string }.

(** [httprateredis.Config] as [setupRoute] fills it. *)
Record Config := { Host : string; Port_ : Z; Password : string }.

(** The surroundings of the server: the outcome of [url.Parse], the
    outcome of [httprateredis.NewRedisLimitCounter] ([None]: a counter,
    [Some err]: the error), and the credentials the Auth Gate accepts. *)
Record Env := {
  url_Parse : string -> URL + Lib.error;
  NewRedisLimitCounter : Config -> option Lib.error;
  authenticated : Request -> bool
}.

(** Modelled from the spec: [lib.AuthOpenShieldMiddleware] is declared in
    package [lib]; by section 4.2 it invokes the wrapped handler when the
    caller authenticates and otherwise answers unauthorized without
    invoking anything behind it.  The limiter branch reads the clock
    once, at [now]. *)
Fixpoint ServeHTTP (env : Env) (h : handler) (r : Request) (now : Z) (w : World)
  : Response * World :=
  match h with
  | OpenAI b =>
      (Handled b, {| counters := counters w; reached := (reached w ++ [(b, r)])%list |})
  | AuthOpenShieldMiddleware next =>
      if authenticated env r then ServeHTTP env next r now w
      else (Unauthorized, w)
  | Limit l next =>
      match Httprate.OnRequest l (RemoteAddr r) now (counters w) with
      | (Httprate.Limited after, _) => (TooManyRequests after, w)
      | (Httprate.Pass, c) =>
          ServeHTTP env next r now {| counters := c; reached := reached w |}
      end
  end.

(** The guards of a handler, outermost first. *)
Inductive guard := AuthGate | RateLimiter.

Fixpoint guards (h : handler) : list guard :=
  match h with
  | OpenAI _ => []
  | AuthOpenShieldMiddleware next => AuthGate :: guards next
  | Limit _ next => RateLimiter :: guards next
  end.

(** A binding of the [chi.Router]; [route_method = None] is a binding for
    every method, as [Handle] makes. *)
Record route := {
  route_method : option string;
  route_pattern : string;
  route_handler : handler
}.

Definition Router := list route.

Definition Get (pattern : string) (h : handler) (r : Router) : Router :=
  (r ++ [{| route_method := Some "GET"; route_pattern := pattern; route_handler := h |}])%list.

Definition Post (pattern : string) (h : handler) (r : Router) : Router :=
  (r ++ [{| route_method := Some "POST"; route_pattern := pattern; route_handler := h |}])%list.

Definition Handle (pattern : string) (h : handler) (r : Router) : Router :=
  (r ++ [{| route_method := None; route_pattern := pattern; route_handler := h |}])%list.

(** [func setupOpenAIRoutes(r chi.Router)]: the three bindings under
    [r.Route("/openai/v1", ...)]. *)
Definition setupOpenAIRoutes (r : Router) : Router :=
  let prefix := "/openai/v1" in
  Post (prefix ++ "/chat/completions")
       (AuthOpenShieldMiddleware (OpenAI ChatCompletionHandler))
    (Get (prefix ++ "/models/{model}")
         (AuthOpenShieldMiddleware (OpenAI GetModelHandler))
      (Get (prefix ++ "/models")
           (AuthOpenShieldMiddleware (OpenAI ListModelsHandler)) r)).

(** [strconv.Atoi] with the error dropped, as in [port, _ := ...]: an
    optional sign and decimal digits; 0 for the empty string, for a sign
    alone and for any other character; the largest or smallest [int] when
    the digits do not fit. *)
Definition digit (a : Ascii.ascii) : option Z :=
  let n := Z.of_nat (Ascii.nat_of_ascii a) in
  if (48 <=? n) && (n <=? 57) then Some (n - 48) else None.

Fixpoint digits (s : string) (acc : Z) : option Z :=
  match s with
  | EmptyString => Some acc
  | String a s' =>
      match digit a with
      | Some d => digits s' (10 * acc + d)
      | None => None
      end
  end.

Definition magnitude (s : string) : option Z :=
  match s with
  | EmptyString => None
  | _ => digits s 0
  end.

Definition Atoi (s : string) : Z :=
  match s with
  | EmptyString => 0
  | String a rest =>
      if Ascii.eqb a "-"%char then
        match magnitude rest with
        | Some n => Z.max (- n) (- 2 ^ 63)
        | None => 0
        end
      else
        match magnitude (if Ascii.eqb a "+"%char then rest else s) with
        | Some n => Z.min n (2 ^ 63 - 1)
        | None => 0
        end
  end.

(** The conversion [uint16(port)]. *)
Definition uint16 (z : Z) : Z := z mod 2 ^ 16.

(** [Expiration := time.Duration(Expiration) * time.Second *
    time.Duration(Window)], two [int64] multiplications. *)
Definition Expiration (s : RouteSettings) : Z :=
  Time.mul (Time.mul (RateLimit_Expiration s) Time.Second) (RateLimit_Window s).

(** [httprate.Limit(Max, Expiration, WithLimitCounter(redisCounter),
    WithKeyFuncs(httprate.KeyByIP))]. *)
Definition rateLimiter (s : RouteSettings) : Httprate.limiter :=
  {| Httprate.requestLimit := RateLimit_Max s;
     Httprate.windowLength := Expiration s |}.

Definition redisConfig (u : URL) : Config :=
  {| Host := Hostname u; Port_ := uint16 (Atoi (Port u)); Password := User_Username u |}.

Inductive outcome :=
| Registered (r : Router)
| Panic (err : Lib.error).

(** [func setupRoute(r chi.Router, path string, routeSettings
    lib.RouteSettings, handler http.HandlerFunc)]. *)
Definition setupRoute (env : Env) (r : Router) (path : string)
    (routeSettings : RouteSettings) (h : handler) : outcome :=
  match url_Parse env (Redis_URI routeSettings) with
  | inr err => Panic err
  | inl redisURL =>
      match NewRedisLimitCounter env (redisConfig redisURL) with
      | Some err => Panic err
      | None => Registered (Handle path (Limit (rateLimiter routeSettings) h) r)
      end
  end.

(** The routes [StartServer] serves: [router = chi.NewRouter()], then
    [setupOpenAIRoutes(router)]; [setupRoute] is not called. *)
Definition StartServer_routes : Router := setupOpenAIRoutes [].

End Server.

(** * Concrete inputs used by the examples *)

(** Concrete surroundings for the recorder: a catalogue that knows the
    model "gpt-4" only. *)
Definition catalogue (name : string) : Models.AiModels + Lib.error :=
  if String.eqb name "gpt-4"
  then inl {| Models.Id := "7f1c"; Models.Name := "gpt-4" |}
  else inr "record not found".

Definition logging_off : Lib.Env :=
  {| Lib.UsageLogging_Enabled := false; Lib.GetModel := catalogue |}.

Definition logging_on : Lib.Env :=
  {| Lib.UsageLogging_Enabled := true; Lib.GetModel := catalogue |}.

Definition nothing_yet : Lib.Effects := {| Lib.logged := []; Lib.created := [] |}.

(** The port is taken: [http.ListenAndServe] returns at once, before any
    signal. *)
Definition bind_error : string := "listen tcp :8080: bind: address already in use".

Definition bind_failed : Lifecycle.group :=
  {| Lifecycle.listener := Lifecycle.Returned (Some (Lifecycle.ListenError bind_error));
     Lifecycle.watcher := Lifecycle.Running;
     Lifecycle.quit := false;
     Lifecycle.parentCancelled := false;
     Lifecycle.groupCancelled := true;
     Lifecycle.gerr := Some (Lifecycle.ListenError bind_error);
     Lifecycle.errs := [Lifecycle.ListenError bind_error] |}.


Definition redis_uri : string := "redis://10.0.0.5:6379".

(** max=5, window=1s, windows=1. *)
Definition five_per_second : Server.RouteSettings :=
  {| Server.RateLimit_Max := 5; Server.RateLimit_Expiration := 1;
     Server.RateLimit_Window := 1; Server.Redis_URI := redis_uri |}.


Definition ms (n : Z) : Z := n * 1000000.

Definition client : string := "203.0.113.7".

(** Five requests within 200ms, a sixth in the same second, and five more
    two seconds after the first. *)
Definition first_burst : list Z := map ms [0; 50; 100; 150; 200].
Definition sixth : Z := ms 500.
Definition two_windows_later : list Z := map ms [2000; 2100; 2200; 2300; 2400].

(** Five more requests, each more than one second after every request of
    [first_burst]. *)
Definition one_window_later : list Z := map ms [1250; 1260; 1270; 1280; 1290].

(** Surroundings of the server.  [url.Parse] understands [redis_uri];
    the Auth Gate accepts one bearer token; Redis answers in [redis_up]
    and cannot be dialled in [redis_down]. *)
Definition parse (uri : string) : Server.URL + Lib.error :=
  if String.eqb uri redis_uri
  then inl {| Server.Hostname := "10.0.0.5"; Server.Port := "6379";
              Server.User_Username := "" |}
  else inr "parse: invalid URI".

Definition accepts (r : Server.Request) : bool :=
  String.eqb (Server.Authorization r) "Bearer sk-valid".

Definition dial_error : string := "httprateredis: unable to dial redis host 10.0.0.5:6379".

Definition redis_up : Server.Env :=
  {| Server.url_Parse := parse;
     Server.NewRedisLimitCounter := fun _ => None;
     Server.authenticated := accepts |}.

Definition redis_down : Server.Env :=
  {| Server.url_Parse := parse;
     Server.NewRedisLimitCounter := fun _ => Some dial_error;
     Server.authenticated := accepts |}.

Definition list_models_by (credential : string) : Server.Request :=
  {| Server.Method := "GET"; Server.Path := "/openai/v1/models";
     Server.RemoteAddr := client; Server.Authorization := credential |}.

Definition caller : Server.Request := list_models_by "Bearer sk-valid".
Definition stranger : Server.Request := list_models_by "Bearer guess".

Definition quiet : Server.World := {| Server.counters := ∅; Server.reached := [] |}.

Definition list_models_route : Server.route :=
  {| Server.route_method := Some "GET";
     Server.route_pattern := "/openai/v1/models";
     Server.route_handler :=
       Server.AuthOpenShieldMiddleware (Server.OpenAI Server.ListModelsHandler) |}.

(** The list-models handler behind its Auth Gate, and the route
    [setupRoute] makes of it under [five_per_second]. *)
Definition guarded_list_models : Server.handler :=
  Server.AuthOpenShieldMiddleware (Server.OpenAI Server.ListModelsHandler).

Definition limited_list_models_route : Server.route :=
  {| Server.route_method := None;
     Server.route_pattern := "/openai/v1/models";
     Server.route_handler :=
       Server.Limit (Server.rateLimiter five_per_second) guarded_list_models |}.

(** The state after a signal, the watcher's [cancel()] and a second
    signal, the listener still serving. *)
Definition signalled_twice : Lifecycle.group :=
  {| Lifecycle.listener := Lifecycle.Running;
     Lifecycle.watcher := Lifecycle.Returned None;
     Lifecycle.quit := true;
     Lifecycle.parentCancelled := true;
     Lifecycle.groupCancelled := false;
     Lifecycle.gerr := None;
     Lifecycle.errs := [] |}.

(** The state after the bind error and the watcher's [return ctx.Err()]. *)
Definition bind_failed_cancelled : Lifecycle.group :=
  {| Lifecycle.listener := Lifecycle.Returned (Some (Lifecycle.ListenError bind_error));
     Lifecycle.watcher := Lifecycle.Returned (Some Lifecycle.Canceled);
     Lifecycle.quit := false;
     Lifecycle.parentCancelled := false;
     Lifecycle.groupCancelled := true;
     Lifecycle.gerr := Some (Lifecycle.ListenError bind_error);
     Lifecycle.errs := [Lifecycle.ListenError bind_error; Lifecycle.Canceled] |}.

Definition other_client : string := "198.51.100.9".

(** Route settings whose [Max] was left at zero. *)
Definition limit_unset : Server.RouteSettings :=
  {| Server.RateLimit_Max := 0; Server.RateLimit_Expiration := 1;
     Server.RateLimit_Window := 1; Server.Redis_URI := redis_uri |}.

(** What [url.Parse] makes of [redis_uri]. *)
Definition redis_url : Server.URL :=
  {| Server.Hostname := "10.0.0.5"; Server.Port := "6379"; Server.User_Username := "" |}.

(** * Properties *)

(** ** The usage recorder *)

Section UsageRecorder.
Import Models Lib.

Variable env : Env.
Variables (modelName finishReason requestType : string).
Variables (predicted prompt completion total : Z).
Variable s : Effects.

(** Whatever the flag and the catalogue say, the recorder hands at most
    one record to [db.Create] and never removes one. *)
Lemma Usage_created_prefix :
  let s' := Usage env modelName predicted prompt completion total
              finishReason requestType s in
  created s' = created s \/ exists u, created s' = (created s ++ [u])%list.
Proof.
  unfold Usage.
  destruct (UsageLogging_Enabled env); [destruct (GetModel env modelName)|];
    simpl; eauto.
Qed.

(** C8: with usage logging disabled the recorder never calls
    [db.Create]: the records handed to persistence are those from before
    the call, and the only effect is the line "Usage logs is disabled". *)
Theorem Usage_disabled_no_persistence :
  UsageLogging_Enabled env = false ->
  let s' := Usage env modelName predicted prompt completion total
              finishReason requestType s in
  created s' = created s /\
  logged s' = (logged s ++ ["Usage logs is disabled"])%list.
Proof.
  intros Hoff. unfold Usage. rewrite Hoff. simpl. split; reflexivity.
Qed.

(** C9: when the model name does not resolve, no record reaches
    [db.Create]; the lookup is made when usage logging is enabled, and
    its error is then written to the log and the call returns.  The
    recorder has no result through which an error could reach the
    caller. *)
Theorem Usage_unresolved_model_dropped (err : error) :
  GetModel env modelName = inr err ->
  let s' := Usage env modelName predicted prompt completion total
              finishReason requestType s in
  created s' = created s /\
  (UsageLogging_Enabled env = true ->
   logged s' = (logged s ++ [("Error: " ++ err)%string])%list).
Proof.
  intros Hget. unfold Usage. rewrite Hget.
  destruct (UsageLogging_Enabled env); simpl; split; intros; congruence.
Qed.

(** C10: with usage logging enabled and a model name that resolves to
    [aiModel], exactly one record is handed to [db.Create]; it carries
    the arguments unchanged and the [Id] of [aiModel]; nothing is
    logged. *)
Theorem Usage_persists_resolved_record (aiModel : AiModels) :
  UsageLogging_Enabled env = true ->
  GetModel env modelName = inl aiModel ->
  let s' := Usage env modelName predicted prompt completion total
              finishReason requestType s in
  created s' =
    (created s ++
     [ {| ModelID := Id aiModel;
          PredictedTokensCount := predicted;
          PromptTokensCount := prompt;
          CompletionTokens := completion;
          TotalTokens := total;
          FinishReason_ := mkFinishReason finishReason;
          RequestType := requestType |} ])%list /\
  logged s' = logged s.
Proof.
  intros Hon Hget. unfold Usage. rewrite Hon, Hget. simpl.
  split; reflexivity.
Qed.

End UsageRecorder.

Lemma Usage_disabled_no_persistence_witness :
  Lib.created (Lib.Usage logging_off "gpt-4" 12 10 20 30 "stop" "openai" nothing_yet) = [] /\
  Lib.logged (Lib.Usage logging_off "gpt-4" 12 10 20 30 "stop" "openai" nothing_yet)
    = ["Usage logs is disabled"].
Proof.
  apply (Usage_disabled_no_persistence logging_off "gpt-4" "stop" "openai"
           12 10 20 30 nothing_yet).
  reflexivity.
Defined.

Lemma Usage_unresolved_model_dropped_witness :
  Lib.created (Lib.Usage logging_on "gpt-5" 12 10 20 30 "stop" "openai" nothing_yet) = [] /\
  (Lib.UsageLogging_Enabled logging_on = true ->
   Lib.logged (Lib.Usage logging_on "gpt-5" 12 10 20 30 "stop" "openai" nothing_yet)
     = ["Error: record not found"]).
Proof.
  apply (Usage_unresolved_model_dropped logging_on "gpt-5" "stop" "openai"
           12 10 20 30 nothing_yet "record not found").
  reflexivity.
Defined.

Lemma Usage_persists_resolved_record_witness :
  Lib.created (Lib.Usage logging_on "gpt-4" 12 10 20 30 "stop" "openai" nothing_yet)
    = [ {| Models.ModelID := "7f1c";
           Models.PredictedTokensCount := 12;
           Models.PromptTokensCount := 10;
           Models.CompletionTokens := 20;
           Models.TotalTokens := 30;
           Models.FinishReason_ := Models.mkFinishReason "stop";
           Models.RequestType := "openai" |} ] /\
  Lib.logged (Lib.Usage logging_on "gpt-4" 12 10 20 30 "stop" "openai" nothing_yet) = [].
Proof.
  apply (Usage_persists_resolved_record logging_on "gpt-4" "stop" "openai"
           12 10 20 30 nothing_yet
           {| Models.Id := "7f1c"; Models.Name := "gpt-4" |});
    reflexivity.
Defined.

(** ** The supervision at the end of [StartServer] *)

Section Supervision.
Import Lifecycle.

Lemma started_supervised : supervised started.
Proof. unfold supervised, started; simpl. intuition. Qed.

Lemma step_supervised ev g g' :
  supervised g -> step ev g = Some g' -> supervised g'.
Proof.
  intros [Hw Hl] Hstep.
  destruct g as [l w q pc gc ge es]; simpl in *.
  destruct ev; simpl in Hstep.
  - inversion Hstep; subst; clear Hstep. split; simpl; assumption.
  - destruct l; simpl in Hstep; [|discriminate].
    inversion Hstep; subst; clear Hstep.
    destruct Hl as (-> & -> & -> & _).
    split; simpl; [assumption|]. exists msg. auto.
  - destruct w as [|r]; simpl in Hstep; [|discriminate].
    destruct q; simpl in Hstep; [|discriminate].
    inversion Hstep; subst; clear Hstep.
    split; simpl; [discriminate|].
    destruct l; [|assumption]. intuition.
  - destruct w as [|r]; simpl in Hstep; [|discriminate].
    unfold ctx_Done in Hstep; simpl in Hstep.
    rewrite (Hw eq_refl) in Hstep; simpl in Hstep.
    destruct gc; [|discriminate].
    inversion Hstep; subst; clear Hstep.
    split; simpl; [discriminate|].
    destruct l as [|rl]; simpl in Hl |- *.
    + destruct Hl as (_ & Hgc & _). discriminate.
    + destruct Hl as (msg & Hr & _ & Hge & Hhd). subst rl ge. exists msg.
      repeat split. destruct es; simpl in *; [discriminate|assumption].
Qed.

Lemma run_supervised evs : forall g g',
  supervised g -> run evs g = Some g' -> supervised g'.
Proof.
  induction evs as [|ev evs IH]; simpl; intros g g' Hg Hrun.
  - inversion Hrun; subst; assumption.
  - destruct (step ev g) as [g1|] eqn:Hstep; [|discriminate].
    eapply IH; [eapply step_supervised; eassumption|eassumption].
Qed.

(** [g.Wait()] never yields nil: it returns only after
    [http.ListenAndServe] has, and that function returns an error. *)
Lemma StartServer_never_returns_nil evs g :
  run evs started = Some g -> StartServer_result g <> Some None.
Proof.
  intros Hrun Hres.
  destruct (run_supervised _ _ _ started_supervised Hrun) as [_ Hl].
  unfold StartServer_result in Hres.
  destruct (listener g) as [|r]; [discriminate|].
  destruct (watcher g); [discriminate|].
  destruct Hl as (msg & _ & _ & Hg & _). congruence.
Qed.

Lemma step_listener_healthy ev g g' :
  (forall msg, ev <> ListenFails msg) ->
  step ev g = Some g' -> listener g = Running -> listener g' = Running.
Proof.
  intros Hev Hstep Hl. destruct g as [l w q pc gc ge es]; simpl in *; subst l.
  destruct ev; simpl in Hstep.
  - inversion Hstep; reflexivity.
  - exfalso. eapply Hev; reflexivity.
  - destruct (is_running w && q); [|discriminate]. inversion Hstep; reflexivity.
  - destruct (is_running w && ctx_Done _); [|discriminate].
    inversion Hstep; reflexivity.
Qed.

(** As long as [http.ListenAndServe] does not return, neither does
    [StartServer], whatever signals arrive. *)
Lemma healthy_listener_blocks_Wait evs : forall g g',
  listener_healthy evs -> listener g = Running ->
  run evs g = Some g' -> listener g' = Running /\ StartServer_result g' = None.
Proof.
  induction evs as [|ev evs IH]; simpl; intros g g' Hh Hl Hrun.
  - inversion Hrun; subst. unfold StartServer_result. rewrite Hl. auto.
  - destruct (step ev g) as [g1|] eqn:Hstep; [|discriminate].
    apply (IH g1 g'); [| |assumption].
    + intros msg Hin. apply (Hh msg). right. assumption.
    + eapply step_listener_healthy; [|eassumption|assumption].
      intros msg ->. apply (Hh msg). left. reflexivity.
Qed.

(** C1: a termination signal while the listener is healthy.  The
    watcher takes [case <-quit], calls [cancel()] and returns nil; the
    listener is still running and [StartServer] has not returned. *)
Theorem signal_with_healthy_listener :
  exists g,
    run [Signal; SelectQuit] started = Some g /\
    watcher g = Returned None /\
    parentCancelled g = true /\
    listener g = Running /\
    StartServer_result g = None /\
    step SelectDone g = None.
Proof.
  eexists. repeat split; reflexivity.
Qed.

(** C5: [StartServer] returns only after both goroutines have returned.
    Once [http.ListenAndServe] has returned its error, that error is the
    first one of the group; [StartServer] has not returned while the
    watcher is still waiting, and has returned exactly that error once the
    watcher has left too.  The watcher, if still waiting, can leave
    through [case <-ctx.Done()] without any signal, after which both have
    returned and [StartServer] returns that error. *)
Theorem listener_error_is_reported evs g :
  run evs started = Some g ->
  (forall res, StartServer_result g = Some res ->
     exists rl rw, listener g = Returned rl /\ watcher g = Returned rw) /\
  (forall r, listener g = Returned r ->
     exists msg,
       r = Some (ListenError msg) /\
       hd_error (errs g) = Some (ListenError msg) /\
       (forall res, StartServer_result g = Some res -> res = Some (ListenError msg)) /\
       StartServer_result g =
         (if is_running (watcher g) then None else Some (Some (ListenError msg))) /\
       exists g',
         run (if is_running (watcher g) then [SelectDone] else []) g = Some g' /\
         listener g' = Returned r /\
         is_running (watcher g') = false /\
         StartServer_result g' = Some (Some (ListenError msg))).
Proof.
  intros Hrun. split.
  - intros res Hres. unfold StartServer_result in Hres.
    destruct (listener g) as [|rl]; [discriminate|].
    destruct (watcher g) as [|rw]; [discriminate|].
    exists rl, rw. split; reflexivity.
  - intros r Hl.
    destruct (run_supervised _ _ _ started_supervised Hrun) as [Hw Hinv].
    rewrite Hl in Hinv. destruct Hinv as (msg & -> & Hgc & Hg & Hhd).
    exists msg. split; [reflexivity|]. split; [assumption|].
    split; [|split].
    + unfold StartServer_result. rewrite Hl.
      destruct (watcher g); intros res Hres; congruence.
    + unfold StartServer_result. rewrite Hl.
      destruct (watcher g); simpl; congruence.
    + destruct (watcher g) as [|rw] eqn:Ew; simpl.
      * unfold ctx_Done. rewrite Ew, Hgc, orb_true_r. simpl.
        eexists; split; [reflexivity|].
        unfold StartServer_result; simpl. rewrite Hl, Hg.
        repeat split.
      * eexists; split; [reflexivity|].
        unfold StartServer_result. rewrite Hl, Ew, Hg.
        repeat split.
Qed.

Lemma listener_error_is_reported_witness :
  (forall res, StartServer_result bind_failed = Some res ->
     exists rl rw, listener bind_failed = Returned rl /\ watcher bind_failed = Returned rw) /\
  (forall r, listener bind_failed = Returned r ->
     exists msg,
       r = Some (ListenError msg) /\
       hd_error (errs bind_failed) = Some (ListenError msg) /\
       (forall res, StartServer_result bind_failed = Some res ->
                    res = Some (ListenError msg)) /\
       StartServer_result bind_failed =
         (if is_running (watcher bind_failed) then None
          else Some (Some (ListenError msg))) /\
       exists g',
         run (if is_running (watcher bind_failed) then [SelectDone] else [])
             bind_failed = Some g' /\
         listener g' = Returned r /\
         is_running (watcher g') = false /\
         StartServer_result g' = Some (Some (ListenError msg))).
Proof.
  exact (listener_error_is_reported [ListenFails bind_error] bind_failed eq_refl).
Defined.

End Supervision.

(** ** The limiter *)

Section Limiter.
Import Httprate.

Lemma Truncate_bounds t d : 0 < d -> Time.Truncate t d <= t < Time.Truncate t d + d.
Proof.
  intros Hd. unfold Time.Truncate.
  destruct (Z.leb_spec d 0); [lia|].
  pose proof (Z.mod_pos_bound t d Hd). lia.
Qed.

Lemma weighted_nothing diff len : 0 < len -> weighted 0 diff len = 0.
Proof.
  intros Hlen. unfold weighted.
  replace (2 * (0 * (len - diff)) + len) with len by lia.
  apply Z.div_small. lia.
Qed.

Lemma count_Increment_same c key w : count (Increment c key w) key w = count c key w + 1.
Proof. unfold count at 1, Increment. rewrite lookup_insert_eq. reflexivity. Qed.

Lemma lookup_Increment_other (c : counters) key w k :
  k <> (key, w) -> Increment c key w !! k = c !! k.
Proof. intros Hne. unfold Increment. apply lookup_insert_ne. congruence. Qed.

(** The middleware for a window that is not zero. *)
Lemma OnRequest_nonzero l0 key0 now c :
  windowLength l0 <> 0 ->
  OnRequest l0 key0 now c =
    if requestLimit l0 <=? rate l0 c key0 now
    then (Limited (Z.quot (windowLength l0) Time.Second), c)
    else (Pass, Increment c key0 (Time.Truncate now (windowLength l0))).
Proof.
  intros Hw. unfold OnRequest.
  destruct (Z.eqb_spec (windowLength l0) 0); [contradiction|reflexivity].
Qed.

(** A request either passes and is counted in its window, or is turned
    away and counted nowhere. *)
Lemma OnRequest_cases l0 key0 now c :
  OnRequest l0 key0 now c
    = (Pass, Increment c key0 (Time.Truncate now (windowLength l0))) \/
  OnRequest l0 key0 now c
    = (Limited (Z.quot (windowLength l0) Time.Second), c).
Proof.
  unfold OnRequest.
  destruct (Z.eqb_spec (windowLength l0) 0) as [Hz|Hnz].
  - left. rewrite Hz. reflexivity.
  - destruct (_ <=? _); [right|left]; reflexivity.
Qed.

Variable l : limiter.
Variable key : string.
Hypothesis window_positive : 0 < windowLength l.

(** With an empty previous window the rate is the current window's
    count. *)
Lemma rate_fresh c now :
  count c key (Time.Truncate now (windowLength l) - windowLength l) = 0 ->
  rate l c key now = count c key (Time.Truncate now (windowLength l)).
Proof.
  intros Hprev. unfold rate. rewrite Hprev, weighted_nothing by assumption.
  reflexivity.
Qed.

Lemma requests_cons t ts c :
  requests l key (t :: ts) c =
    (fst (OnRequest l key t c) :: fst (requests l key ts (snd (OnRequest l key t c))),
     snd (requests l key ts (snd (OnRequest l key t c)))).
Proof.
  simpl. destruct (OnRequest l key t c) as [v c1]. simpl.
  destruct (requests l key ts c1) as [vs c2]. reflexivity.
Qed.

Lemma requests_app ts1 : forall ts2 c,
  requests l key (ts1 ++ ts2) c =
    ((fst (requests l key ts1 c) ++ fst (requests l key ts2 (snd (requests l key ts1 c))))%list,
     snd (requests l key ts2 (snd (requests l key ts1 c)))).
Proof.
  induction ts1 as [|t ts1 IH]; intros ts2 c.
  - simpl. destruct (requests l key ts2 c); reflexivity.
  - change ((t :: ts1) ++ ts2)%list with (t :: (ts1 ++ ts2))%list.
    rewrite !requests_cons, IH. reflexivity.
Qed.

(** A burst of requests that all fall into the window starting at [w],
    the window before it being empty: requests pass until the window's
    count reaches the limit, later ones are turned away with
    [Retry-After] set to the window length in seconds, and no other
    counter changes. *)
Lemma burst_in_window w times : forall c,
  (forall t, In t times -> Time.Truncate t (windowLength l) = w) ->
  count c key (w - windowLength l) = 0 ->
  let passing :=
    Nat.min (length times) (Z.to_nat (requestLimit l - count c key w)) in
  fst (requests l key times c) =
    (repeat Pass passing ++
     repeat (Limited (Z.quot (windowLength l) Time.Second)) (length times - passing))%list /\
  count (snd (requests l key times c)) key w = count c key w + Z.of_nat passing /\
  forall k, k <> (key, w) -> snd (requests l key times c) !! k = c !! k.
Proof.
  induction times as [|t ts IH]; intros c Hin Hprev.
  - simpl. repeat split. lia.
  - assert (Ht : Time.Truncate t (windowLength l) = w) by (apply Hin; left; reflexivity).
    assert (Hts : forall x, In x ts -> Time.Truncate x (windowLength l) = w)
      by (intros x Hx; apply Hin; right; assumption).
    rewrite requests_cons, OnRequest_nonzero by lia.
    rewrite rate_fresh by (rewrite Ht; assumption). rewrite Ht.
    destruct (Z.leb_spec (requestLimit l) (count c key w)) as [Hfull|Hroom]; simpl fst; simpl snd.
    + destruct (IH c Hts Hprev) as (Hv & Hc & Hframe).
      replace (Z.to_nat (requestLimit l - count c key w)) with O in * by lia.
      rewrite Nat.min_0_r in *. simpl in *.
      rewrite Nat.sub_0_r in Hv. rewrite Hv.
      repeat split; [lia|assumption].
    + assert (Hprev' : count (Increment c key w) key (w - windowLength l) = 0).
      { unfold count. rewrite lookup_Increment_other; [exact Hprev|].
        intros [=]. lia. }
      destruct (IH (Increment c key w) Hts Hprev') as (Hv & Hc & Hframe).
      rewrite count_Increment_same in Hv, Hc.
      replace (Z.to_nat (requestLimit l - count c key w))
        with (S (Z.to_nat (requestLimit l - (count c key w + 1)))) by lia.
      simpl length. rewrite <- Nat.succ_min_distr. simpl.
      rewrite Hv. repeat split; [lia|].
      intros k Hk. rewrite Hframe by assumption.
      apply lookup_Increment_other. assumption.
Qed.

End Limiter.

(** ** The limiter [setupRoute] builds *)

Section RouteLimiter.
Import Httprate Server.

Lemma wrap64_small z : - 2 ^ 63 <= z < 2 ^ 63 -> Time.wrap64 z = z.
Proof. intros Hz. unfold Time.wrap64. rewrite Z.mod_small; lia. Qed.

(** Without overflow the window handed to [httprate.Limit] is
    [Expiration * Window] seconds. *)
Lemma Expiration_exact s :
  0 < RateLimit_Expiration s -> 0 < RateLimit_Window s ->
  RateLimit_Expiration s * RateLimit_Window s * Time.Second < 2 ^ 63 ->
  Expiration s = RateLimit_Expiration s * RateLimit_Window s * Time.Second.
Proof.
  intros HE HW Hfit. unfold Expiration, Time.mul, Time.Second in *.
  rewrite (wrap64_small (RateLimit_Expiration s * 1000000000)) by nia.
  rewrite wrap64_small by nia. lia.
Qed.


(** C7: the limiter of a route with policy max [N], window length [E]
    seconds and [K] windows, for a client that has no count in the four
    windows involved.  [N] requests in one window pass, a further request
    in the same window is turned away with [Retry-After] equal to the
    effective window [E * K] seconds, and in any window that starts at
    least two effective windows later [N] requests pass again. *)
Theorem quota_per_window_then_reset (s : RouteSettings) (key : string)
    (c : Httprate.counters) (w w2 : Z) (burst1 burst2 : list Z) (t : Z) :
  0 < RateLimit_Expiration s -> 0 < RateLimit_Window s ->
  RateLimit_Expiration s * RateLimit_Window s * Time.Second < 2 ^ 63 ->
  let effective := RateLimit_Expiration s * RateLimit_Window s * Time.Second in
  let N := Z.to_nat (RateLimit_Max s) in
  length burst1 = N -> length burst2 = N ->
  (forall x, In x (burst1 ++ [t])%list -> Time.Truncate x effective = w) ->
  (forall x, In x burst2 -> Time.Truncate x effective = w2) ->
  w + 2 * effective <= w2 ->
  count c key w = 0 -> count c key (w - effective) = 0 ->
  count c key w2 = 0 -> count c key (w2 - effective) = 0 ->
  fst (requests (rateLimiter s) key (burst1 ++ t :: burst2) c) =
    (repeat Pass N
       ++ Limited (RateLimit_Expiration s * RateLimit_Window s)
       :: repeat Pass N)%list.
Proof.
  intros HE HW Hfit effective N Hl1 Hl2 Hin1 Hin2 Hfar Hw Hwp Hw2 Hw2p.
  pose proof (Expiration_exact s HE HW Hfit) as Hexp.
  assert (Hlen : windowLength (rateLimiter s) = effective) by exact Hexp.
  assert (Hpos : 0 < windowLength (rateLimiter s))
    by (rewrite Hlen; unfold effective, Time.Second; nia).
  assert (Hretry : Z.quot (windowLength (rateLimiter s)) Time.Second
                   = RateLimit_Expiration s * RateLimit_Window s).
  { rewrite Hlen. unfold effective. rewrite Z.quot_mul; [reflexivity|discriminate]. }
  replace (burst1 ++ t :: burst2)%list with ((burst1 ++ [t]) ++ burst2)%list
    by (rewrite <- app_assoc; reflexivity).
  rewrite requests_app. simpl fst.
  destruct (burst_in_window (rateLimiter s) key Hpos w (burst1 ++ [t])%list c)
    as (Hv1 & _ & Hframe).
  { rewrite Hlen. exact Hin1. }
  { rewrite Hlen. exact Hwp. }
  destruct (burst_in_window (rateLimiter s) key Hpos w2 burst2
              (snd (requests (rateLimiter s) key (burst1 ++ [t])%list c)))
    as (Hv2 & _ & _).
  { rewrite Hlen. exact Hin2. }
  { rewrite Hlen. unfold count. rewrite Hframe; [exact Hw2p|].
    intros [=]. unfold effective, Time.Second in *. nia. }
  assert (Hc2 : count (snd (requests (rateLimiter s) key (burst1 ++ [t])%list c)) key w2 = 0).
  { unfold count. rewrite Hframe; [exact Hw2|].
    intros [=]. unfold effective, Time.Second in *. nia. }
  rewrite Hv1, Hv2, Hc2, Hw, Hretry.
  simpl requestLimit. rewrite !Z.sub_0_r. fold N.
  rewrite length_app, Hl1, Hl2. simpl length.
  replace (Nat.min (N + 1) N) with N by lia.
  replace (N + 1 - N)%nat with 1%nat by lia.
  rewrite Nat.min_id, Nat.sub_diag. simpl.
  rewrite app_nil_r, <- app_assoc. reflexivity.
Qed.



Lemma quota_per_window_then_reset_witness :
  fst (requests (rateLimiter five_per_second) client
         (first_burst ++ sixth :: two_windows_later) ∅) =
    (repeat Pass 5 ++ Limited 1 :: repeat Pass 5)%list.
Proof.
  refine (quota_per_window_then_reset five_per_second client ∅ 0 (ms 2000)
            first_burst two_windows_later sixth
            eq_refl eq_refl eq_refl eq_refl eq_refl _ _ _
            eq_refl eq_refl eq_refl eq_refl).
  - intros x Hx. simpl in Hx.
    repeat (destruct Hx as [<-|Hx]; [reflexivity|]). contradiction.
  - intros x Hx. simpl in Hx.
    repeat (destruct Hx as [<-|Hx]; [reflexivity|]). contradiction.
  - vm_compute. discriminate.
Defined.

(** C7 fails on [five_per_second]: after five requests within 200ms,
    five requests sent more than one effective window after each of them
    do not all pass; the first does and the other four are turned away. *)
Lemma quota_not_restored_after_one_window :
  map passed (fst (requests (rateLimiter five_per_second) client
                     (first_burst ++ one_window_later) ∅))
    = [true; true; true; true; true; true; false; false; false; false] /\
  map passed (fst (requests (rateLimiter five_per_second) client
                     (first_burst ++ one_window_later) ∅))
    <> repeat true 10.
Proof. split; vm_compute; [reflexivity|discriminate]. Qed.

End RouteLimiter.

(** ** Route wiring *)

Section Routes.
Import Server.

Lemma OnRequest_Pass l key now c c' :
  Httprate.OnRequest l key now c = (Httprate.Pass, c') ->
  c' = Httprate.Increment c key (Time.Truncate now (Httprate.windowLength l)).
Proof.
  destruct (OnRequest_cases l key now c) as [-> | ->]; [|discriminate].
  intros [= <-]. reflexivity.
Qed.

Lemma StartServer_routes_handlers rt :
  In rt StartServer_routes ->
  exists b, route_handler rt = AuthOpenShieldMiddleware (OpenAI b).
Proof.
  unfold StartServer_routes, setupOpenAIRoutes, Get, Post. simpl.
  intros [<-|[<-|[<-|[]]]]; eexists; reflexivity.
Qed.

(** C2: every route [StartServer] registers is guarded by the Auth Gate
    alone.  No request on such a route changes a rate-limit counter, no
    request is answered 429, and every authenticated request reaches the
    backend handler. *)
Theorem registered_routes_auth_only (rt : route) :
  In rt StartServer_routes ->
  guards (route_handler rt) = [AuthGate] /\
  forall env r now w,
    counters (snd (ServeHTTP env (route_handler rt) r now w)) = counters w /\
    (forall after, fst (ServeHTTP env (route_handler rt) r now w) <> TooManyRequests after) /\
    (authenticated env r = true ->
     exists b, ServeHTTP env (route_handler rt) r now w =
       (Handled b, {| counters := counters w; reached := (reached w ++ [(b, r)])%list |})).
Proof.
  intros Hin. destruct (StartServer_routes_handlers rt Hin) as [b ->].
  split; [reflexivity|].
  intros env r now w. simpl.
  destruct (authenticated env r); simpl; repeat split; try discriminate.
  intros _. exists b. reflexivity.
Qed.

Lemma registered_routes_auth_only_witness :
  guards (route_handler list_models_route) = [AuthGate] /\
  forall env r now w,
    counters (snd (ServeHTTP env (route_handler list_models_route) r now w)) = counters w /\
    (forall after, fst (ServeHTTP env (route_handler list_models_route) r now w)
                   <> TooManyRequests after) /\
    (authenticated env r = true ->
     exists b, ServeHTTP env (route_handler list_models_route) r now w =
       (Handled b, {| counters := counters w; reached := (reached w ++ [(b, r)])%list |})).
Proof.
  apply (registered_routes_auth_only list_models_route).
  left. reflexivity.
Defined.

(** C2 fails on the list-models route: it is registered, its guard chain
    has no rate limiter, and with the limit of [five_per_second] in the
    configuration six requests of one caller within 250ms all reach the
    backend handler. *)
Lemma list_models_not_rate_limited :
  In list_models_route StartServer_routes /\
  guards (route_handler list_models_route) <> [AuthGate; RateLimiter] /\
  fst (fold_left
         (fun '(rs, w) now =>
            let '(resp, w') := ServeHTTP redis_up (route_handler list_models_route) caller now w in
            ((rs ++ [resp])%list, w'))
         (map ms [0; 50; 100; 150; 200; 250]) ([], quiet))
    = repeat (Handled ListModelsHandler) 6.
Proof.
  split; [left; reflexivity|]. split; [discriminate|]. vm_compute. reflexivity.
Qed.

Lemma setupRoute_registered env r path s h r' :
  setupRoute env r path s h = Registered r' ->
  r' = (r ++ [{| route_method := None; route_pattern := path;
                 route_handler := Limit (rateLimiter s) h |}])%list.
Proof.
  unfold setupRoute, Handle.
  destruct (url_Parse env (Redis_URI s)); [|discriminate].
  destruct (NewRedisLimitCounter env _); [discriminate|].
  intros [= <-]. reflexivity.
Qed.

(** C3: on the routes [StartServer] registers a request that fails
    authentication is answered 401 and changes nothing, no counter
    included.  On a route made by [setupRoute] the limiter is the
    outermost guard: a request it turns away reaches no guard behind it,
    and a request it lets pass has been counted when an Auth Gate inside
    the handler refuses it. *)
Theorem guard_order env :
  (forall rt r now w,
     In rt StartServer_routes -> authenticated env r = false ->
     ServeHTTP env (route_handler rt) r now w = (Unauthorized, w)) /\
  (forall rtr path s h rtr',
     setupRoute env rtr path s h = Registered rtr' ->
     exists rt,
       rtr' = (rtr ++ [rt])%list /\
       guards (route_handler rt) = RateLimiter :: guards h /\
       forall r now w,
         match Httprate.OnRequest (rateLimiter s) (RemoteAddr r) now (counters w) with
         | (Httprate.Limited after, _) =>
             ServeHTTP env (route_handler rt) r now w = (TooManyRequests after, w)
         | (Httprate.Pass, c) =>
             c = Httprate.Increment (counters w) (RemoteAddr r)
                   (Time.Truncate now (Httprate.windowLength (rateLimiter s))) /\
             ServeHTTP env (route_handler rt) r now w
               = ServeHTTP env h r now {| counters := c; reached := reached w |} /\
             (authenticated env r = false ->
              forall next, h = AuthOpenShieldMiddleware next ->
              ServeHTTP env (route_handler rt) r now w
                = (Unauthorized, {| counters := c; reached := reached w |}))
         end).
Proof.
  split.
  - intros rt r now w Hin Hno.
    destruct (StartServer_routes_handlers rt Hin) as [b ->].
    simpl. rewrite Hno. reflexivity.
  - intros rtr path s h rtr' Hreg.
    apply setupRoute_registered in Hreg. subst rtr'.
    eexists. split; [reflexivity|]. split; [reflexivity|].
    intros r now w. simpl route_handler.
    destruct (Httprate.OnRequest _ _ _ _) as [[|after] c] eqn:Hon.
    + assert (Hserve : ServeHTTP env (Limit (rateLimiter s) h) r now w
                       = ServeHTTP env h r now {| counters := c; reached := reached w |})
        by (simpl; rewrite Hon; reflexivity).
      split; [exact (OnRequest_Pass _ _ _ _ _ Hon)|].
      split; [exact Hserve|].
      intros Hno next ->. rewrite Hserve. simpl. rewrite Hno. reflexivity.
    + simpl. rewrite Hon. reflexivity.
Qed.

Lemma guard_order_witness :
  ServeHTTP redis_up (route_handler list_models_route) stranger (ms 100) quiet
    = (Unauthorized, quiet).
Proof.
  apply (proj1 (guard_order redis_up)); [left; reflexivity|reflexivity].
Defined.

(** C3 fails on a route made by [setupRoute] from a handler behind the
    Auth Gate: the limiter comes first in the chain, and a request with a
    wrong credential is answered 401 after the caller's counter has gone
    from 0 to 1. *)
Lemma limiter_counts_unauthenticated_request :
  setupRoute redis_up [] "/openai/v1/models" five_per_second guarded_list_models
    = Registered [limited_list_models_route] /\
  guards (route_handler limited_list_models_route) = [RateLimiter; AuthGate] /\
  authenticated redis_up stranger = false /\
  Httprate.count (counters quiet) client 0 = 0 /\
  fst (ServeHTTP redis_up (route_handler limited_list_models_route) stranger (ms 100) quiet)
    = Unauthorized /\
  Httprate.count
    (counters (snd (ServeHTTP redis_up (route_handler limited_list_models_route)
                      stranger (ms 100) quiet))) client 0 = 1.
Proof. repeat split; vm_compute; reflexivity. Qed.

Lemma setupRoute_panics_on_bad_uri env r path s h err :
  url_Parse env (Redis_URI s) = inr err -> setupRoute env r path s h = Panic err.
Proof. intros Hparse. unfold setupRoute. rewrite Hparse. reflexivity. Qed.

(** C6: when [httprateredis.NewRedisLimitCounter] returns an error,
    [setupRoute] panics with it and registers nothing; the limit, the
    window and the window count of the route settings have no say in
    this. *)
Theorem setupRoute_panics_when_store_fails env r path s h u err :
  url_Parse env (Redis_URI s) = inl u ->
  NewRedisLimitCounter env (redisConfig u) = Some err ->
  setupRoute env r path s h = Panic err /\
  forall s', Redis_URI s' = Redis_URI s -> setupRoute env r path s' h = Panic err.
Proof.
  intros Hparse Hdial.
  assert (H : forall s', Redis_URI s' = Redis_URI s ->
                         setupRoute env r path s' h = Panic err).
  { intros s' Huri. unfold setupRoute. rewrite Huri, Hparse, Hdial. reflexivity. }
  split; [apply H; reflexivity|exact H].
Qed.

Lemma setupRoute_panics_when_store_fails_witness :
  setupRoute redis_down [] "/openai/v1/models" five_per_second guarded_list_models
    = Panic dial_error /\
  forall s', Redis_URI s' = Redis_URI five_per_second ->
    setupRoute redis_down [] "/openai/v1/models" s' guarded_list_models = Panic dial_error.
Proof.
  apply (setupRoute_panics_when_store_fails redis_down [] "/openai/v1/models"
           five_per_second guarded_list_models
           {| Hostname := "10.0.0.5"; Port := "6379"; User_Username := "" |}
           dial_error); reflexivity.
Defined.

(** C6 fails when Redis cannot be dialled while a route is set up:
    [setupRoute] ends in [panic(err)]. *)
Lemma unreachable_store_panics :
  setupRoute redis_down [] "/openai/v1/models" five_per_second guarded_list_models
    = Panic dial_error.
Proof. reflexivity. Qed.

End Routes.

(** * Further properties of the code *)

(** ** The usage recorder, every call *)

Section UsageRecorderCalls.
Import Models Lib.

(** X1: a call of the recorder has exactly one effect: it either writes
    one line to the log or hands one record to [db.Create], never both,
    and what was logged and recorded before stays as it was. *)
Theorem Usage_one_effect (env : Env) (modelName finishReason requestType : string)
    (predicted prompt completion total : Z) (s : Effects) :
  let s' := Usage env modelName predicted prompt completion total
              finishReason requestType s in
  (exists line, logged s' = (logged s ++ [line])%list /\ created s' = created s) \/
  (exists u, created s' = (created s ++ [u])%list /\ logged s' = logged s).
Proof.
  unfold Usage.
  destruct (UsageLogging_Enabled env).
  - destruct (GetModel env modelName) as [aiModel|err]; simpl.
    + right. eexists. split; reflexivity.
    + left. eexists. split; reflexivity.
  - left. eexists. split; reflexivity.
Qed.

(** X2: a record reaches [db.Create] only when usage logging is enabled
    and the model name resolves, and then its [ModelID] is the [Id] of the
    resolved model. *)
Theorem Usage_persists_only_resolved (env : Env)
    (modelName finishReason requestType : string)
    (predicted prompt completion total : Z) (s : Effects) :
  created (Usage env modelName predicted prompt completion total
             finishReason requestType s) <> created s ->
  UsageLogging_Enabled env = true /\
  exists aiModel u,
    GetModel env modelName = inl aiModel /\
    created (Usage env modelName predicted prompt completion total
               finishReason requestType s) = (created s ++ [u])%list /\
    ModelID u = Id aiModel.
Proof.
  unfold Usage.
  destruct (UsageLogging_Enabled env).
  - destruct (GetModel env modelName) as [aiModel|err]; simpl; intros Hnew.
    + split; [reflexivity|]. eexists. eexists.
      split; [reflexivity|]. split; reflexivity.
    + contradiction.
  - simpl. intros Hnew. contradiction.
Qed.

Lemma Usage_persists_only_resolved_witness :
  UsageLogging_Enabled logging_on = true /\
  exists aiModel u,
    GetModel logging_on "gpt-4" = inl aiModel /\
    created (Usage logging_on "gpt-4" 12 10 20 30 "stop" "openai" nothing_yet)
      = (created nothing_yet ++ [u])%list /\
    ModelID u = Id aiModel.
Proof.
  apply (Usage_persists_only_resolved logging_on "gpt-4" "stop" "openai"
           12 10 20 30 nothing_yet).
  simpl. discriminate.
Defined.

End UsageRecorderCalls.

(** ** The supervision, every interleaving *)

Section SupervisionRuns.
Import Lifecycle.

Lemma step_listener_returns ev g g' r :
  step ev g = Some g' -> listener g' = Returned r ->
  listener g = Returned r \/
  exists msg, ev = ListenFails msg /\ r = Some (ListenError msg).
Proof.
  intros Hstep Hl. destruct g as [l w q pc gc ge es]; simpl in *.
  destruct ev; simpl in Hstep.
  - inversion Hstep; subst; simpl in Hl. left. exact Hl.
  - destruct l; simpl in Hstep; [|discriminate].
    inversion Hstep; subst; simpl in Hl. right. exists msg.
    split; [reflexivity|]. congruence.
  - destruct (is_running w && q); [|discriminate].
    inversion Hstep; subst; simpl in Hl. left. exact Hl.
  - destruct (is_running w && ctx_Done _); [|discriminate].
    inversion Hstep; subst; simpl in Hl. left. exact Hl.
Qed.

Lemma run_listener_returns evs : forall g g' r,
  run evs g = Some g' -> listener g' = Returned r ->
  listener g = Returned r \/
  exists msg, In (ListenFails msg) evs /\ r = Some (ListenError msg).
Proof.
  induction evs as [|ev evs IH]; simpl; intros g g' r Hrun Hl.
  - inversion Hrun; subst. left. exact Hl.
  - destruct (step ev g) as [g1|] eqn:Hstep; [|discriminate].
    destruct (IH g1 g' r Hrun Hl) as [Hl1|(msg & Hin & Hr)].
    + destruct (step_listener_returns _ _ _ _ Hstep Hl1) as [H|(msg & -> & Hr)].
      * left. exact H.
      * right. exists msg. split; [left; reflexivity|exact Hr].
    + right. exists msg. split; [right; exact Hin|exact Hr].
Qed.

(** X3: whenever [StartServer] returns, it returns an error, and that
    error is one [http.ListenAndServe] returned during the run: neither nil
    nor the watcher's [context.Canceled] is ever the result. *)
Theorem StartServer_returns_listener_error evs g res :
  run evs started = Some g ->
  StartServer_result g = Some res ->
  exists msg, res = Some (ListenError msg) /\ In (ListenFails msg) evs.
Proof.
  intros Hrun Hres.
  destruct (run_supervised _ _ _ started_supervised Hrun) as [_ Hinv].
  unfold StartServer_result in Hres.
  destruct (listener g) as [|r] eqn:Hl; [discriminate|].
  destruct (watcher g); [discriminate|].
  destruct Hinv as (msg & -> & _ & Hg & _).
  exists msg. split; [congruence|].
  destruct (run_listener_returns _ _ _ _ Hrun Hl) as [H0|(msg' & Hin & Hr)].
  - discriminate.
  - injection Hr as <-. exact Hin.
Qed.

Lemma StartServer_returns_listener_error_witness :
  exists msg,
    Some (ListenError bind_error) = Some (ListenError msg) /\
    In (ListenFails msg) [Signal; ListenFails bind_error; SelectQuit].
Proof.
  refine (StartServer_returns_listener_error
            [Signal; ListenFails bind_error; SelectQuit] _ _ eq_refl eq_refl).
Defined.

(** X4: in a run in which [http.ListenAndServe] does not return,
    [StartServer] does not return either, however many signals arrive and
    whether or not the watcher has called [cancel()]; no error is recorded
    meanwhile. *)
Theorem no_return_while_listener_serves evs g :
  listener_healthy evs ->
  run evs started = Some g ->
  listener g = Running /\ StartServer_result g = None /\ gerr g = None.
Proof.
  intros Hh Hrun.
  destruct (healthy_listener_blocks_Wait evs started g Hh eq_refl Hrun) as [Hl Hres].
  destruct (run_supervised _ _ _ started_supervised Hrun) as [_ Hinv].
  rewrite Hl in Hinv. destruct Hinv as (Hg & _).
  repeat split; assumption.
Qed.

Lemma no_return_while_listener_serves_witness :
  listener signalled_twice = Running /\
  StartServer_result signalled_twice = None /\
  gerr signalled_twice = None.
Proof.
  apply (no_return_while_listener_serves [Signal; SelectQuit; Signal]).
  - intros msg [H|[H|[H|[]]]]; discriminate.
  - reflexivity.
Defined.

Lemma step_errors ev g g' :
  step ev g = Some g' ->
  ((forall e, watcher g = Returned (Some e) -> e = Canceled) ->
   forall e, watcher g' = Returned (Some e) -> e = Canceled) /\
  ((length (errs g) <= (if is_running (listener g) then 0 else 1)
                       + match watcher g with Returned (Some _) => 1 | _ => 0 end)%nat ->
   (length (errs g') <= (if is_running (listener g') then 0 else 1)
                        + match watcher g' with Returned (Some _) => 1 | _ => 0 end)%nat).
Proof.
  intros Hstep. destruct g as [l w q pc gc ge es]; simpl in *.
  destruct ev; simpl in Hstep.
  - inversion Hstep; subst; simpl. split; auto.
  - destruct l; simpl in Hstep; [|discriminate].
    inversion Hstep; subst; simpl. split; [auto|].
    rewrite length_app. simpl. lia.
  - destruct w as [|rw]; simpl in Hstep; [|discriminate].
    destruct q; simpl in Hstep; [|discriminate].
    inversion Hstep; subst; simpl. split; [intros _ e [=]|auto].
  - destruct w as [|rw]; simpl in Hstep; [|discriminate].
    destruct (ctx_Done _); simpl in Hstep; [|discriminate].
    inversion Hstep; subst; simpl. split; [intros _ e [= <-]; reflexivity|].
    rewrite length_app. simpl. lia.
Qed.

(** X5: the only error the watcher can return is [context.Canceled], it
    returns it only after [http.ListenAndServe] has returned, and the two
    goroutines return at most two errors between them. *)
Theorem watcher_error_comes_second evs g :
  run evs started = Some g ->
  (forall e, watcher g = Returned (Some e) ->
     e = Canceled /\ exists msg, listener g = Returned (Some (ListenError msg))) /\
  (length (errs g) <= 2)%nat.
Proof.
  intros Hrun.
  assert (Hinv : forall evs g0 g1,
            run evs g0 = Some g1 ->
            (forall e, watcher g0 = Returned (Some e) -> e = Canceled) ->
            (length (errs g0) <= (if is_running (listener g0) then 0 else 1)
               + match watcher g0 with Returned (Some _) => 1 | _ => 0 end)%nat ->
            (forall e, watcher g1 = Returned (Some e) -> e = Canceled) /\
            (length (errs g1) <= (if is_running (listener g1) then 0 else 1)
               + match watcher g1 with Returned (Some _) => 1 | _ => 0 end)%nat).
  { clear. induction evs as [|ev evs IH]; simpl; intros g0 g1 Hrun Hc Hlen.
    - inversion Hrun; subst. split; assumption.
    - destruct (step ev g0) as [g|] eqn:Hstep; [|discriminate].
      destruct (step_errors _ _ _ Hstep) as [H1 H2].
      apply (IH g g1 Hrun); auto. }
  destruct (Hinv evs started g Hrun) as [Hc Hlen].
  { intros e [=]. }
  { simpl. lia. }
  destruct (run_supervised _ _ _ started_supervised Hrun) as [_ Hsup].
  split.
  - intros e Hw. split; [exact (Hc e Hw)|].
    destruct (listener g) as [|r].
    + destruct Hsup as (_ & _ & _ & [H|H]); congruence.
    + destruct Hsup as (msg & -> & _). exists msg. reflexivity.
  - destruct (is_running (listener g)); destruct (watcher g) as [|[e|]]; lia.
Qed.

Lemma watcher_error_comes_second_witness :
  (forall e, watcher bind_failed_cancelled = Returned (Some e) ->
     e = Canceled /\
     exists msg, listener bind_failed_cancelled = Returned (Some (ListenError msg))) /\
  (length (errs bind_failed_cancelled) <= 2)%nat.
Proof.
  apply (watcher_error_comes_second [ListenFails bind_error; SelectDone]).
  reflexivity.
Defined.

End SupervisionRuns.

(** ** [setupRoute], every input *)

Section SetupRoute.
Import Server.

Lemma wrap64_range z : - 2 ^ 63 <= Time.wrap64 z < 2 ^ 63.
Proof.
  unfold Time.wrap64.
  pose proof (Z.mod_pos_bound (z + 2 ^ 63) (2 ^ 64) ltac:(lia)). lia.
Qed.

(** X6: for a positive window length and window count, the window handed
    to [httprate.Limit] is their product in seconds exactly when that
    product fits a [time.Duration]; beyond that the two [int64]
    multiplications wrap and the window is another value. *)
Theorem Expiration_exact_iff (s : RouteSettings) :
  0 < RateLimit_Expiration s -> 0 < RateLimit_Window s ->
  (Expiration s = RateLimit_Expiration s * RateLimit_Window s * Time.Second
   <-> RateLimit_Expiration s * RateLimit_Window s * Time.Second < 2 ^ 63).
Proof.
  intros HE HW. split.
  - intros Heq. rewrite <- Heq. unfold Expiration, Time.mul.
    apply wrap64_range.
  - apply Expiration_exact; assumption.
Qed.

Lemma Expiration_exact_iff_witness :
  Expiration five_per_second
    = RateLimit_Expiration five_per_second * RateLimit_Window five_per_second * Time.Second
  <-> RateLimit_Expiration five_per_second * RateLimit_Window five_per_second * Time.Second
      < 2 ^ 63.
Proof.
  apply (Expiration_exact_iff five_per_second); reflexivity.
Defined.

(** X8: [setupRoute] either panics or appends exactly one route.  It
    panics with the error of [url.Parse], or else with the error of
    [NewRedisLimitCounter]; otherwise every earlier route stays in place
    and the new route binds [path] for every method, the limiter around
    the handler. *)
Theorem setupRoute_outcomes env (r : Router) path s h :
  match setupRoute env r path s h with
  | Panic err =>
      url_Parse env (Redis_URI s) = inr err \/
      exists u, url_Parse env (Redis_URI s) = inl u /\
                NewRedisLimitCounter env (redisConfig u) = Some err
  | Registered r' =>
      exists rt,
        r' = (r ++ [rt])%list /\
        route_method rt = None /\ route_pattern rt = path /\
        guards (route_handler rt) = RateLimiter :: guards h /\
        (exists u, url_Parse env (Redis_URI s) = inl u /\
                   NewRedisLimitCounter env (redisConfig u) = None)
  end.
Proof.
  unfold setupRoute.
  destruct (url_Parse env (Redis_URI s)) as [u|err] eqn:Hparse.
  - destruct (NewRedisLimitCounter env (redisConfig u)) as [err|] eqn:Hdial.
    + right. exists u. split; [reflexivity|exact Hdial].
    + eexists. split; [reflexivity|]. repeat split.
      exists u. split; [reflexivity|exact Hdial].
  - left. reflexivity.
Qed.

End SetupRoute.

(** ** Guards, however they are stacked *)

Section Guards.
Import Server.

Variable env : Env.

(** X9: a request is answered by at most one backend handler, and the
    answer says which: after [Handled b] exactly the pair of [b] and the
    request has been added to the handlers reached, and after a 401 or a
    429 none has. *)
Theorem ServeHTTP_reaches_what_it_answers (h : handler) (r : Request) (now : Z) :
  forall w,
    reached (snd (ServeHTTP env h r now w)) =
      match fst (ServeHTTP env h r now w) with
      | Handled b => (reached w ++ [(b, r)])%list
      | Unauthorized | TooManyRequests _ => reached w
      end.
Proof.
  induction h as [b|next IH|l next IH]; intros w; simpl.
  - reflexivity.
  - destruct (authenticated env r); [apply IH|reflexivity].
  - destruct (Httprate.OnRequest l (RemoteAddr r) now (counters w)) as [[|after] c].
    + rewrite IH. reflexivity.
    + reflexivity.
Qed.

(** X10: a handler with an Auth Gate anywhere in its chain is never
    reached by a request that fails authentication, whatever other guards
    surround the gate. *)
Theorem auth_gate_protects_backend (h : handler) (r : Request) (now : Z) :
  In AuthGate (guards h) -> authenticated env r = false ->
  forall w,
    reached (snd (ServeHTTP env h r now w)) = reached w /\
    forall b, fst (ServeHTTP env h r now w) <> Handled b.
Proof.
  intros Hin Hno.
  induction h as [b|next IH|l next IH]; intros w; simpl in *.
  - contradiction.
  - rewrite Hno. simpl. split; [reflexivity|discriminate].
  - destruct Hin as [Hin|Hin]; [discriminate|].
    destruct (Httprate.OnRequest l (RemoteAddr r) now (counters w)) as [[|after] c].
    + exact (IH Hin {| counters := c; reached := reached w |}).
    + simpl. split; [reflexivity|discriminate].
Qed.

(** X11: a handler without a rate limiter in its chain never answers
    429 and leaves every rate-limit counter as it was. *)
Theorem no_limiter_no_counting (h : handler) (r : Request) (now : Z) :
  ~ In RateLimiter (guards h) ->
  forall w,
    counters (snd (ServeHTTP env h r now w)) = counters w /\
    forall after, fst (ServeHTTP env h r now w) <> TooManyRequests after.
Proof.
  intros Hnot.
  induction h as [b|next IH|l next IH]; intros w; simpl in *.
  - split; [reflexivity|discriminate].
  - destruct (authenticated env r).
    + apply IH. intros Hin. apply Hnot. right. exact Hin.
    + simpl. split; [reflexivity|discriminate].
  - exfalso. apply Hnot. left. reflexivity.
Qed.

End Guards.

Lemma auth_gate_protects_backend_witness :
  Server.reached
    (snd (Server.ServeHTTP redis_up (Server.route_handler limited_list_models_route)
            stranger (ms 100) quiet)) = Server.reached quiet /\
  forall b,
    fst (Server.ServeHTTP redis_up (Server.route_handler limited_list_models_route)
           stranger (ms 100) quiet) <> Server.Handled b.
Proof.
  refine (auth_gate_protects_backend redis_up
            (Server.route_handler limited_list_models_route) stranger (ms 100)
            _ eq_refl quiet).
  right. left. reflexivity.
Defined.

Lemma no_limiter_no_counting_witness :
  Server.counters (snd (Server.ServeHTTP redis_up guarded_list_models caller (ms 100) quiet))
    = Server.counters quiet /\
  forall after,
    fst (Server.ServeHTTP redis_up guarded_list_models caller (ms 100) quiet)
      <> Server.TooManyRequests after.
Proof.
  refine (no_limiter_no_counting redis_up guarded_list_models caller (ms 100) _ quiet).
  intros [H|[]]. discriminate.
Defined.

(** ** The limiter, every sequence of requests *)

Section LimiterRuns.
Import Httprate.

Variable l : limiter.

Lemma count_Increment_other_key c key key' w0 w :
  key <> key' -> count (Increment c key w0) key' w = count c key' w.
Proof.
  intros Hne. unfold count. rewrite lookup_Increment_other; [reflexivity|].
  intros [=]. congruence.
Qed.

Lemma count_Increment_other_window c key w0 w :
  w <> w0 -> count (Increment c key w0) key w = count c key w.
Proof.
  intros Hne. unfold count. rewrite lookup_Increment_other; [reflexivity|].
  intros [=]. congruence.
Qed.

(** The verdict on a request of [key] reads the counters of [key] only. *)
Lemma OnRequest_reads_own_counters key now c1 c2 :
  (forall w, count c1 key w = count c2 key w) ->
  fst (OnRequest l key now c1) = fst (OnRequest l key now c2) /\
  forall w, count (snd (OnRequest l key now c1)) key w
            = count (snd (OnRequest l key now c2)) key w.
Proof.
  intros Hagree.
  assert (Hinc : forall w0 w, count (Increment c1 key w0) key w
                              = count (Increment c2 key w0) key w).
  { intros w0 w. destruct (Z.eq_dec w w0) as [->|Hne].
    - rewrite !count_Increment_same, Hagree. reflexivity.
    - rewrite !count_Increment_other_window by assumption. apply Hagree. }
  unfold OnRequest, rate. rewrite !Hagree.
  destruct (windowLength l =? 0); simpl; [split; [reflexivity|apply Hinc]|].
  destruct (_ <=? _); simpl; [split; [reflexivity|exact Hagree]|].
  split; [reflexivity|apply Hinc].
Qed.

Lemma requests_read_own_counters key times : forall c1 c2,
  (forall w, count c1 key w = count c2 key w) ->
  fst (requests l key times c1) = fst (requests l key times c2).
Proof.
  induction times as [|t ts IH]; intros c1 c2 Hagree; [reflexivity|].
  rewrite !requests_cons. simpl.
  destruct (OnRequest_reads_own_counters key t c1 c2 Hagree) as [Hv Hc].
  rewrite Hv, (IH _ _ Hc). reflexivity.
Qed.

Lemma requests_keep_other_keys key key' times : forall c w,
  key <> key' ->
  count (snd (requests l key times c)) key' w = count c key' w.
Proof.
  induction times as [|t ts IH]; intros c w Hne; [reflexivity|].
  rewrite requests_cons. simpl. rewrite IH by assumption.
  destruct (OnRequest_cases l key t c) as [-> | ->]; simpl; [|reflexivity].
  apply count_Increment_other_key. assumption.
Qed.

(** X12: callers with different addresses do not touch each other's
    quota: whatever one client has sent, every counter of another client
    is as before, and so is the verdict on each of the other client's
    requests. *)
Theorem clients_do_not_interfere (key key' : string) (times : list Z) (c : counters) :
  key <> key' ->
  (forall w, count (snd (requests l key times c)) key' w = count c key' w) /\
  (forall times', fst (requests l key' times' (snd (requests l key times c)))
                  = fst (requests l key' times' c)).
Proof.
  intros Hne. split.
  - intros w. apply requests_keep_other_keys. assumption.
  - intros times'. apply requests_read_own_counters.
    intros w. apply requests_keep_other_keys. assumption.
Qed.

Hypothesis window_positive : 0 < windowLength l.

Lemma weighted_nonneg prev now :
  0 <= prev ->
  0 <= weighted prev (now - Time.Truncate now (windowLength l)) (windowLength l).
Proof.
  intros Hprev. unfold weighted.
  pose proof (Truncate_bounds now (windowLength l) window_positive).
  apply Z.div_pos; nia.
Qed.

Lemma OnRequest_keeps_bound key now c :
  (forall w, 0 <= count c key w <= requestLimit l) ->
  forall w, 0 <= count (snd (OnRequest l key now c)) key w <= requestLimit l.
Proof.
  intros Hb w. rewrite OnRequest_nonzero by lia.
  destruct (Z.leb_spec (requestLimit l) (rate l c key now)) as [_|Hroom]; simpl;
    [apply Hb|].
  destruct (Z.eq_dec w (Time.Truncate now (windowLength l))) as [->|Hne].
  - rewrite count_Increment_same. unfold rate in Hroom.
    pose proof (weighted_nonneg
                  (count c key (Time.Truncate now (windowLength l) - windowLength l))
                  now (proj1 (Hb _))).
    pose proof (Hb (Time.Truncate now (windowLength l))). lia.
  - rewrite count_Increment_other_window by assumption. apply Hb.
Qed.

(** X13: the limiter never lets a window's counter pass the limit: if
    no counter of a client is above the limit, then after any requests of
    that client, at any instants and in any order, none is. *)
Theorem window_count_never_exceeds_limit (key : string) (times : list Z) :
  forall c,
    (forall w, 0 <= count c key w <= requestLimit l) ->
    forall w, 0 <= count (snd (requests l key times c)) key w <= requestLimit l.
Proof.
  induction times as [|t ts IH]; intros c Hb w; [apply Hb|].
  rewrite requests_cons. simpl.
  apply IH. apply OnRequest_keeps_bound. exact Hb.
Qed.

(** X14: with a limit of zero or less, as an unset [Max] gives, every
    request is turned away and no counter moves. *)
Theorem nonpositive_limit_turns_all_away (key : string) (times : list Z) (c : counters) :
  requestLimit l <= 0 ->
  (forall w, 0 <= count c key w) ->
  Forall (fun v => passed v = false) (fst (requests l key times c)) /\
  snd (requests l key times c) = c.
Proof.
  intros Hlimit Hc.
  induction times as [|t ts IH]; [split; [constructor|reflexivity]|].
  assert (Hrate : requestLimit l <= rate l c key t).
  { unfold rate.
    pose proof (weighted_nonneg
                  (count c key (Time.Truncate t (windowLength l) - windowLength l))
                  t (Hc _)).
    pose proof (Hc (Time.Truncate t (windowLength l))). lia. }
  assert (Hstep : OnRequest l key t c
                  = (Limited (Z.quot (windowLength l) Time.Second), c)).
  { rewrite OnRequest_nonzero by lia.
    apply Z.leb_le in Hrate. rewrite Hrate. reflexivity. }
  rewrite requests_cons, Hstep. simpl.
  destruct IH as [Hv Hs]. split; [constructor; [reflexivity|exact Hv]|exact Hs].
Qed.

End LimiterRuns.

Lemma clients_do_not_interfere_witness :
  (forall w, Httprate.count
               (snd (Httprate.requests (Server.rateLimiter five_per_second) client
                       first_burst ∅)) other_client w
             = Httprate.count ∅ other_client w) /\
  (forall times',
     fst (Httprate.requests (Server.rateLimiter five_per_second) other_client times'
            (snd (Httprate.requests (Server.rateLimiter five_per_second) client
                    first_burst ∅)))
     = fst (Httprate.requests (Server.rateLimiter five_per_second) other_client times' ∅)).
Proof.
  refine (clients_do_not_interfere (Server.rateLimiter five_per_second)
            client other_client first_burst ∅ _).
  intros H. vm_compute in H. discriminate H.
Defined.

Lemma window_count_never_exceeds_limit_witness :
  0 <= Httprate.count
         (snd (Httprate.requests (Server.rateLimiter five_per_second) client
                 (first_burst ++ sixth :: one_window_later) ∅)) client 0
    <= Httprate.requestLimit (Server.rateLimiter five_per_second).
Proof.
  refine (window_count_never_exceeds_limit (Server.rateLimiter five_per_second)
            eq_refl client (first_burst ++ sixth :: one_window_later) ∅ _ 0).
  intros w. unfold Httprate.count. rewrite lookup_empty. simpl. lia.
Defined.

Lemma nonpositive_limit_turns_all_away_witness :
  Forall (fun v => Httprate.passed v = false)
    (fst (Httprate.requests (Server.rateLimiter limit_unset) client first_burst ∅)) /\
  snd (Httprate.requests (Server.rateLimiter limit_unset) client first_burst ∅) = ∅.
Proof.
  refine (nonpositive_limit_turns_all_away (Server.rateLimiter limit_unset)
            eq_refl client first_burst ∅ _ _).
  - simpl. lia.
  - intros w. unfold Httprate.count. rewrite lookup_empty. simpl. lia.
Defined.

(** ** The Redis port, written in decimal *)

Section PortDigits.
Import Server.

Ltac eval_digit :=
  match goal with
  | |- context [digit ?a] =>
      let v := eval vm_compute in (digit a) in change (digit a) with v
  end.

Lemma digits_of_uint_acc d : forall acc,
  digits (NilEmpty.string_of_uint d) (Z.pos acc) = Some (Z.pos (Pos.of_uint_acc d acc)).
Proof.
  induction d; intros acc; [reflexivity|..];
    cbn [NilEmpty.string_of_uint digits Pos.of_uint_acc]; eval_digit; cbv iota beta;
    rewrite <- IHd; f_equal; lia.
Qed.

Lemma digits_of_uint d :
  digits (NilEmpty.string_of_uint d) 0 = Some (Z.of_N (Pos.of_uint d)).
Proof.
  induction d; [reflexivity|..];
    cbn [NilEmpty.string_of_uint digits Pos.of_uint]; eval_digit; cbv iota beta;
    [exact IHd|..]; cbn [Z.of_N]; rewrite <- digits_of_uint_acc; reflexivity.
Qed.

Lemma string_of_uint_empty d : NilEmpty.string_of_uint d = EmptyString -> d = Nil.
Proof. destruct d; simpl; [reflexivity|discriminate..]. Qed.

Ltac eval_sign :=
  repeat match goal with
  | |- context [Ascii.eqb ?a ?b] =>
      let v := eval vm_compute in (Ascii.eqb a b) in change (Ascii.eqb a b) with v
  end.

(** [strconv.Atoi] reads a string of decimal digits, leading zeros
    included, as its number, up to the largest [int]. *)
Lemma Atoi_of_uint (d : Decimal.uint) :
  Atoi (NilEmpty.string_of_uint d) = Z.min (Z.of_N (Pos.of_uint d)) (2 ^ 63 - 1).
Proof.
  pose proof (digits_of_uint d) as Hd.
  destruct d; [reflexivity|..];
    unfold Atoi; cbn [NilEmpty.string_of_uint] in *; eval_sign; cbv iota;
    unfold magnitude; rewrite Hd; reflexivity.
Qed.

Lemma Atoi_decimal (n : N) :
  Atoi (NilEmpty.string_of_uint (N.to_uint n)) = Z.min (Z.of_N n) (2 ^ 63 - 1).
Proof.
  rewrite Atoi_of_uint.
  change (Pos.of_uint (N.to_uint n)) with (N.of_uint (N.to_uint n)).
  rewrite DecimalN.Unsigned.of_to. reflexivity.
Qed.

(** X7: the port [setupRoute] puts into the Redis configuration is
    always a [uint16].  It is 0 when the URI has no port, since the error
    of [strconv.Atoi] is dropped; and for any string of decimal digits,
    which is all [url.URL.Port] returns besides the empty string, it is
    the number read, capped at the largest [int], modulo 65536. *)
Theorem redisConfig_port (u : URL) :
  0 <= Port_ (redisConfig u) < 2 ^ 16 /\
  (Port u = EmptyString -> Port_ (redisConfig u) = 0) /\
  (forall d, NilEmpty.uint_of_string (Port u) = Some d ->
     Port_ (redisConfig u) = Z.min (Z.of_N (N.of_uint d)) (2 ^ 63 - 1) mod 2 ^ 16).
Proof.
  unfold redisConfig, uint16. simpl Port_. repeat split.
  - apply Z.mod_pos_bound. lia.
  - apply Z.mod_pos_bound. lia.
  - intros ->. reflexivity.
  - intros d Hd. apply NilEmpty.sus in Hd. rewrite <- Hd, Atoi_of_uint.
    reflexivity.
Qed.

(** X15: a port written in decimal in the Redis URI reaches the Redis
    configuration unchanged when it is below 65536; a larger one is cut
    to its low 16 bits by [uint16(port)], and one beyond the largest [int]
    becomes 65535. *)
Theorem redisConfig_decimal_port (u : URL) (n : N) :
  Port u = NilEmpty.string_of_uint (N.to_uint n) ->
  (Z.of_N n < 2 ^ 16 -> Port_ (redisConfig u) = Z.of_N n) /\
  (Z.of_N n < 2 ^ 63 -> Port_ (redisConfig u) = Z.of_N n mod 2 ^ 16) /\
  (2 ^ 63 <= Z.of_N n -> Port_ (redisConfig u) = 65535).
Proof.
  intros HPort. unfold redisConfig, uint16. simpl Port_.
  rewrite HPort, Atoi_decimal.
  repeat split; intros Hn.
  - rewrite Z.min_l by lia. apply Z.mod_small. lia.
  - rewrite Z.min_l by lia. reflexivity.
  - rewrite Z.min_r by lia. reflexivity.
Qed.

Lemma redisConfig_decimal_port_witness :
  (Z.of_N 6379 < 2 ^ 16 -> Port_ (redisConfig redis_url) = Z.of_N 6379) /\
  (Z.of_N 6379 < 2 ^ 63 -> Port_ (redisConfig redis_url) = Z.of_N 6379 mod 2 ^ 16) /\
  (2 ^ 63 <= Z.of_N 6379 -> Port_ (redisConfig redis_url) = 65535).
Proof.
  apply (redisConfig_decimal_port redis_url 6379). reflexivity.
Defined.

End PortDigits.

(** ** A request the limiter turns away *)

Section TurnedAway.
Import Server.

Variable env : Env.

Lemma no_limiter_never_limited (h : handler) (r : Request) (now : Z) :
  ~ In RateLimiter (guards h) ->
  forall w after, fst (ServeHTTP env h r now w) <> TooManyRequests after.
Proof.
  intros Hnot.
  induction h as [b|next IH|l next IH]; intros w after; simpl in *.
  - discriminate.
  - destruct (authenticated env r); [|discriminate].
    apply IH. intros Hin. apply Hnot. right. exact Hin.
  - exfalso. apply Hnot. left. reflexivity.
Qed.

(** X16: on a route made by [setupRoute] from a handler that has no
    limiter of its own, a request answered 429 has changed nothing: no
    counter has moved and no handler was reached.  When the limiter's
    window is a whole number of seconds, as every window [setupRoute]
    computes without overflow is, the [Retry-After] it carries is that
    number of seconds. *)
Theorem turned_away_leaves_no_trace (l : Httprate.limiter) (h : handler)
    (r : Request) (now : Z) (w : World) (after : Z) :
  ~ In RateLimiter (guards h) ->
  fst (ServeHTTP env (Limit l h) r now w) = TooManyRequests after ->
  snd (ServeHTTP env (Limit l h) r now w) = w /\
  (Httprate.windowLength l mod Time.Second = 0 ->
   after * Time.Second = Httprate.windowLength l).
Proof.
  intros Hnot. simpl.
  destruct (OnRequest_cases l (RemoteAddr r) now (counters w)) as [Hon|Hon];
    rewrite Hon.
  - intros Hresp. exfalso.
    exact (no_limiter_never_limited h r now Hnot _ _ Hresp).
  - simpl. intros [= <-]. split; [reflexivity|].
    intros Hwhole.
    apply Z.mod_divide in Hwhole; [|discriminate].
    destruct Hwhole as [k ->].
    rewrite Z.quot_mul; [reflexivity|discriminate].
Qed.

End TurnedAway.

Lemma turned_away_leaves_no_trace_witness :
  snd (Server.ServeHTTP redis_up
         (Server.Limit (Server.rateLimiter limit_unset) guarded_list_models)
         caller (ms 100) quiet) = quiet /\
  (Httprate.windowLength (Server.rateLimiter limit_unset) mod Time.Second = 0 ->
   1 * Time.Second = Httprate.windowLength (Server.rateLimiter limit_unset)).
Proof.
  refine (turned_away_leaves_no_trace redis_up (Server.rateLimiter limit_unset)
            guarded_list_models caller (ms 100) quiet 1 _ eq_refl).
  intros [H|[]]. discriminate.
Defined.
